(** * gdap: the district-lookup pipeline of [gdap.py]

    A shallow embedding of [DistrictLookup] (geocoder adapter, the four
    district resolvers, [process_records] and [save_progress]) and the
    properties of the record-enrichment pipeline.

    Conventions.
    - A spreadsheet cell is a [scalar]; a decoded JSON body is a [pyval].
    - Python expressions that may raise are evaluated in the error monad
      [E]; statements run in [M], which threads the object state, the
      local variables of [process_records] and a trace of the external
      calls, and carries [continue] and exceptions as outcomes.
    - The external services, the clock and the interpreter's rendering of
      floats and of its own exception messages are fields of a [world].
    - Logging and the timeouts of the requests leave no mark on the
      dataset or on the calls made, and are left out. *)

From Stdlib Require Import String Ascii List ZArith QArith Bool Arith Lia.
From Stdlib Require Import DecimalString.
Import ListNotations.

Local Close Scope Q_scope.
Local Open Scope list_scope.
Local Open Scope string_scope.

(** ** Values *)

(** What a cell of the loaded sheet can hold: [None], the float NaN that
    pandas uses for a blank cell, booleans, integers, finite floats and
    strings. *)
Inductive scalar : Type :=
| SNone
| SNaN
| SBool (b : bool)
| SInt (z : Z)
| SFloat (q : Q)
| SStr (s : string).

(** A decoded JSON document ([response.json()]). *)
#[warnings="-register-all"]
Inductive pyval : Type :=
| PScalar (s : scalar)
| PList (items : list pyval)
| PDict (entries : list (string * pyval)).

Definition PNone : pyval := PScalar SNone.
Definition PStr (s : string) : pyval := PScalar (SStr s).
Definition PInt (z : Z) : pyval := PScalar (SInt z).

(** Exceptions the modelled code can meet.  The first five are raised by
    the interpreter, the others come out of geopy, requests or the JSON
    decoder with the message they carry. *)
Inductive exn : Type :=
| KeyError (key : scalar)
| TypeError
| AttributeError
| IndexError
| UnboundLocalError (name : string)
| GeocoderTimedOut (msg : string)
| GeocoderServiceError (msg : string)
| LibraryError (msg : string).

(** ** Python's view of scalars *)

(** [bool(v)]: note that NaN, being a non-zero float, is true. *)
Definition truthy (v : scalar) : bool :=
  match v with
  | SNone => false
  | SNaN => true
  | SBool b => b
  | SInt z => negb (z =? 0)%Z
  | SFloat q => negb (Qnum q =? 0)%Z
  | SStr s => negb (s =? "")
  end.

(** [pd.notna(v)] on a scalar. *)
Definition notna (v : scalar) : bool :=
  match v with
  | SNone | SNaN => false
  | _ => true
  end.

(** [all([...])] *)
Definition py_all (vs : list scalar) : bool := forallb truthy vs.

(** [v == 'literal'] for a string literal. *)
Definition eq_str (v : scalar) (lit : string) : bool :=
  match v with
  | SStr s => s =? lit
  | _ => false
  end.

Definition truthy_val (v : pyval) : bool :=
  match v with
  | PScalar s => truthy s
  | PList items => negb (Nat.eqb (length items) 0)
  | PDict entries => negb (Nat.eqb (length entries) 0)
  end.

(** ** Strings *)

Definition lower_ascii (c : ascii) : ascii :=
  let n := nat_of_ascii c in
  if (65 <=? n)%nat && (n <=? 90)%nat then ascii_of_nat (n + 32) else c.

(** [s.lower()] on the ASCII range. *)
Fixpoint lower (s : string) : string :=
  match s with
  | EmptyString => EmptyString
  | String c rest => String (lower_ascii c) (lower rest)
  end.

(** [sub in s] for strings. *)
Fixpoint contains (sub s : string) : bool :=
  prefix sub s ||
  match s with
  | EmptyString => false
  | String _ rest => contains sub rest
  end.

Definition str_of_Z (z : Z) : string := NilZero.string_of_int (Z.to_int z).

(** A key whose [repr] is the key between single quotes. *)
Definition plain_char (c : ascii) : bool :=
  let n := nat_of_ascii c in
  (32 <=? n)%nat && (n <=? 126)%nat && negb (Nat.eqb n 39) && negb (Nat.eqb n 92).

Fixpoint plain (s : string) : bool :=
  match s with
  | EmptyString => true
  | String c rest => plain_char c && plain rest
  end.

(** ** The error monad of expressions *)

Definition E (A : Type) : Type := exn + A.

Definition eret {A} (a : A) : E A := inr a.
Definition eraise {A} (e : exn) : E A := inl e.
Definition ebind {A B} (m : E A) (k : A -> E B) : E B :=
  match m with
  | inl e => inl e
  | inr a => k a
  end.

Declare Scope expr_scope.
Delimit Scope expr_scope with expr.
Notation "x <- m ;; k" := (ebind m (fun x => k))
  (at level 61, m at next level, right associativity) : expr_scope.

(** ** Dictionaries and JSON access *)

Fixpoint lookup {V} (k : string) (d : list (string * V)) : option V :=
  match d with
  | [] => None
  | (k', v) :: rest => if k' =? k then Some v else lookup k rest
  end.

(** [d[k]] on a dict built by the program itself. *)
Definition dict_getitem {V} (d : list (string * V)) (k : string) : E V :=
  match lookup k d with
  | Some v => eret v
  | None => eraise (KeyError (SStr k))
  end.

(** ['k' in v] *)
Definition py_in (k : string) (v : pyval) : E bool :=
  match v with
  | PDict entries =>
      eret (match lookup k entries with Some _ => true | None => false end)
  | PList items =>
      eret (existsb (fun x => match x with
                              | PScalar s => eq_str s k
                              | _ => false
                              end) items)
  | PScalar (SStr s) => eret (contains k s)
  | PScalar _ => eraise TypeError
  end.

(** [v['k']] *)
Definition py_getitem (v : pyval) (k : string) : E pyval :=
  match v with
  | PDict entries => dict_getitem entries k
  | _ => eraise TypeError
  end.

(** [v[0]] *)
Definition py_first (v : pyval) : E pyval :=
  match v with
  | PList [] => eraise IndexError
  | PList (x :: _) => eret x
  | PDict _ => eraise (KeyError (SInt 0))
  | PScalar (SStr EmptyString) => eraise IndexError
  | PScalar (SStr (String c _)) => eret (PStr (String c EmptyString))
  | PScalar _ => eraise TypeError
  end.

(** [v.get('k', default)] *)
Definition py_get (v : pyval) (k : string) (default : pyval) : E pyval :=
  match v with
  | PDict entries =>
      eret (match lookup k entries with Some x => x | None => default end)
  | _ => eraise AttributeError
  end.

(** ** Extraction of the fields from a decoded body

    The part of each resolver between [data = response.json()] and its
    [return]s; it is pure, and every failure in it is an exception that
    the resolver's [except] turns into the sentinel. *)

Local Open Scope expr_scope.

(** Body shared by [get_sf_supervisorial_district] and
    [get_marin_supervisor_district]. *)
Definition features_district (data : pyval) : E (list (string * pyval)) :=
  has <- py_in "features" data ;;
  cond <- (if has then
             feats <- py_getitem data "features" ;; eret (truthy_val feats)
           else eret false) ;;
  if cond then
    feats <- py_getitem data "features" ;;
    feature <- py_first feats ;;
    attributes <- py_getitem feature "attributes" ;;
    district <- py_get attributes "DISTRICT" (PStr "Unknown") ;;
    eret [("district", district)]
  else
    eret [("district", PNone)].

(** One geography level of the census answer: the first element's [field]
    when the level is present and non-empty, else [None]. *)
Definition geography_level (geographies : pyval) (level field : string)
  : E pyval :=
  has <- py_in level geographies ;;
  if has then
    level_data <- py_getitem geographies level ;;
    if truthy_val level_data then
      first <- py_first level_data ;;
      py_get first field PNone
    else eret PNone
  else eret PNone.

Definition census_fields (data : pyval) : E (list (string * pyval)) :=
  has <- py_in "result" data ;;
  cond <- (if has then
             result <- py_getitem data "result" ;; py_in "geographies" result
           else eret false) ;;
  if cond then
    result <- py_getitem data "result" ;;
    geographies <- py_getitem result "geographies" ;;
    puma <- geography_level geographies "Public Use Microdata Areas" "PUMA" ;;
    tract <- geography_level geographies "Census Tracts" "TRACT" ;;
    block <- geography_level geographies "Census Blocks" "BLOCK" ;;
    eret [("puma", puma); ("tract", tract); ("block", block)]
  else
    eret [("puma", PNone); ("tract", PNone); ("block", PNone)].

Definition political_fields (data : pyval) : E (list (string * pyval)) :=
  has <- py_in "results" data ;;
  cond <- (if has then
             results <- py_getitem data "results" ;; eret (truthy_val results)
           else eret false) ;;
  if cond then
    results <- py_getitem data "results" ;;
    result <- py_first results ;;
    congressional <- py_get result "congress_district" PNone ;;
    assembly <- py_get result "state_lower_district" PNone ;;
    senate <- py_get result "state_upper_district" PNone ;;
    eret [("congressional", congressional); ("assembly", assembly);
          ("senate", senate)]
  else
    eret [("congressional", PNone); ("assembly", PNone); ("senate", PNone)].

Local Close Scope expr_scope.

(** ** The dataset *)

(** One row of [self.df] after [load_data]: the three input columns (absent
    when the sheet lacks them), the thirteen columns [load_data] adds, and
    the two supervisor-name columns that [process_records] writes to. *)
Record row : Type := mkRow {
  Person_Address : option scalar;
  Person_city : option scalar;
  Person_Zip_Code : option scalar;
  Latitude : scalar;
  Longitude : scalar;
  Geocoded_Address : scalar;
  SF_Supervisorial_District : pyval;
  Marin_Supervisor_District : pyval;
  Congressional_District : pyval;
  Census_PUMA : pyval;
  Census_Tract : pyval;
  Census_Block : pyval;
  CA_Assembly_District : pyval;
  CA_Senate_District : pyval;
  Geocoding_Status : scalar;
  Last_Updated : scalar;
  SF_Supervisor : option pyval;
  Marin_Supervisor : option pyval
}.

Definition set_Latitude (v : scalar) (r : row) : row :=
  mkRow (Person_Address r) (Person_city r) (Person_Zip_Code r) v
    (Longitude r) (Geocoded_Address r) (SF_Supervisorial_District r)
    (Marin_Supervisor_District r) (Congressional_District r) (Census_PUMA r)
    (Census_Tract r) (Census_Block r) (CA_Assembly_District r)
    (CA_Senate_District r) (Geocoding_Status r) (Last_Updated r)
    (SF_Supervisor r) (Marin_Supervisor r).

Definition set_Longitude (v : scalar) (r : row) : row :=
  mkRow (Person_Address r) (Person_city r) (Person_Zip_Code r) (Latitude r)
    v (Geocoded_Address r) (SF_Supervisorial_District r)
    (Marin_Supervisor_District r) (Congressional_District r) (Census_PUMA r)
    (Census_Tract r) (Census_Block r) (CA_Assembly_District r)
    (CA_Senate_District r) (Geocoding_Status r) (Last_Updated r)
    (SF_Supervisor r) (Marin_Supervisor r).

Definition set_Geocoded_Address (v : scalar) (r : row) : row :=
  mkRow (Person_Address r) (Person_city r) (Person_Zip_Code r) (Latitude r)
    (Longitude r) v (SF_Supervisorial_District r)
    (Marin_Supervisor_District r) (Congressional_District r) (Census_PUMA r)
    (Census_Tract r) (Census_Block r) (CA_Assembly_District r)
    (CA_Senate_District r) (Geocoding_Status r) (Last_Updated r)
    (SF_Supervisor r) (Marin_Supervisor r).

Definition set_Geocoding_Status (v : scalar) (r : row) : row :=
  mkRow (Person_Address r) (Person_city r) (Person_Zip_Code r) (Latitude r)
    (Longitude r) (Geocoded_Address r) (SF_Supervisorial_District r)
    (Marin_Supervisor_District r) (Congressional_District r) (Census_PUMA r)
    (Census_Tract r) (Census_Block r) (CA_Assembly_District r)
    (CA_Senate_District r) v (Last_Updated r) (SF_Supervisor r)
    (Marin_Supervisor r).

Definition set_SF_Supervisorial_District (v : pyval) (r : row) : row :=
  mkRow (Person_Address r) (Person_city r) (Person_Zip_Code r) (Latitude r)
    (Longitude r) (Geocoded_Address r) v (Marin_Supervisor_District r)
    (Congressional_District r) (Census_PUMA r) (Census_Tract r)
    (Census_Block r) (CA_Assembly_District r) (CA_Senate_District r)
    (Geocoding_Status r) (Last_Updated r) (SF_Supervisor r)
    (Marin_Supervisor r).

Definition set_SF_Supervisor (v : pyval) (r : row) : row :=
  mkRow (Person_Address r) (Person_city r) (Person_Zip_Code r) (Latitude r)
    (Longitude r) (Geocoded_Address r) (SF_Supervisorial_District r)
    (Marin_Supervisor_District r) (Congressional_District r) (Census_PUMA r)
    (Census_Tract r) (Census_Block r) (CA_Assembly_District r)
    (CA_Senate_District r) (Geocoding_Status r) (Last_Updated r) (Some v)
    (Marin_Supervisor r).

Definition set_Marin_Supervisor_District (v : pyval) (r : row) : row :=
  mkRow (Person_Address r) (Person_city r) (Person_Zip_Code r) (Latitude r)
    (Longitude r) (Geocoded_Address r) (SF_Supervisorial_District r) v
    (Congressional_District r) (Census_PUMA r) (Census_Tract r)
    (Census_Block r) (CA_Assembly_District r) (CA_Senate_District r)
    (Geocoding_Status r) (Last_Updated r) (SF_Supervisor r)
    (Marin_Supervisor r).

Definition set_Marin_Supervisor (v : pyval) (r : row) : row :=
  mkRow (Person_Address r) (Person_city r) (Person_Zip_Code r) (Latitude r)
    (Longitude r) (Geocoded_Address r) (SF_Supervisorial_District r)
    (Marin_Supervisor_District r) (Congressional_District r) (Census_PUMA r)
    (Census_Tract r) (Census_Block r) (CA_Assembly_District r)
    (CA_Senate_District r) (Geocoding_Status r) (Last_Updated r)
    (SF_Supervisor r) (Some v).

Definition set_Census_PUMA (v : pyval) (r : row) : row :=
  mkRow (Person_Address r) (Person_city r) (Person_Zip_Code r) (Latitude r)
    (Longitude r) (Geocoded_Address r) (SF_Supervisorial_District r)
    (Marin_Supervisor_District r) (Congressional_District r) v
    (Census_Tract r) (Census_Block r) (CA_Assembly_District r)
    (CA_Senate_District r) (Geocoding_Status r) (Last_Updated r)
    (SF_Supervisor r) (Marin_Supervisor r).

Definition set_Census_Tract (v : pyval) (r : row) : row :=
  mkRow (Person_Address r) (Person_city r) (Person_Zip_Code r) (Latitude r)
    (Longitude r) (Geocoded_Address r) (SF_Supervisorial_District r)
    (Marin_Supervisor_District r) (Congressional_District r) (Census_PUMA r)
    v (Census_Block r) (CA_Assembly_District r) (CA_Senate_District r)
    (Geocoding_Status r) (Last_Updated r) (SF_Supervisor r)
    (Marin_Supervisor r).

Definition set_Census_Block (v : pyval) (r : row) : row :=
  mkRow (Person_Address r) (Person_city r) (Person_Zip_Code r) (Latitude r)
    (Longitude r) (Geocoded_Address r) (SF_Supervisorial_District r)
    (Marin_Supervisor_District r) (Congressional_District r) (Census_PUMA r)
    (Census_Tract r) v (CA_Assembly_District r) (CA_Senate_District r)
    (Geocoding_Status r) (Last_Updated r) (SF_Supervisor r)
    (Marin_Supervisor r).

Definition set_Congressional_District (v : pyval) (r : row) : row :=
  mkRow (Person_Address r) (Person_city r) (Person_Zip_Code r) (Latitude r)
    (Longitude r) (Geocoded_Address r) (SF_Supervisorial_District r)
    (Marin_Supervisor_District r) v (Census_PUMA r) (Census_Tract r)
    (Census_Block r) (CA_Assembly_District r) (CA_Senate_District r)
    (Geocoding_Status r) (Last_Updated r) (SF_Supervisor r)
    (Marin_Supervisor r).

Definition set_CA_Assembly_District (v : pyval) (r : row) : row :=
  mkRow (Person_Address r) (Person_city r) (Person_Zip_Code r) (Latitude r)
    (Longitude r) (Geocoded_Address r) (SF_Supervisorial_District r)
    (Marin_Supervisor_District r) (Congressional_District r) (Census_PUMA r)
    (Census_Tract r) (Census_Block r) v (CA_Senate_District r)
    (Geocoding_Status r) (Last_Updated r) (SF_Supervisor r)
    (Marin_Supervisor r).

Definition set_CA_Senate_District (v : pyval) (r : row) : row :=
  mkRow (Person_Address r) (Person_city r) (Person_Zip_Code r) (Latitude r)
    (Longitude r) (Geocoded_Address r) (SF_Supervisorial_District r)
    (Marin_Supervisor_District r) (Congressional_District r) (Census_PUMA r)
    (Census_Tract r) (Census_Block r) (CA_Assembly_District r) v
    (Geocoding_Status r) (Last_Updated r) (SF_Supervisor r)
    (Marin_Supervisor r).

Definition set_Last_Updated (v : scalar) (r : row) : row :=
  mkRow (Person_Address r) (Person_city r) (Person_Zip_Code r) (Latitude r)
    (Longitude r) (Geocoded_Address r) (SF_Supervisorial_District r)
    (Marin_Supervisor_District r) (Congressional_District r) (Census_PUMA r)
    (Census_Tract r) (Census_Block r) (CA_Assembly_District r)
    (CA_Senate_District r) (Geocoding_Status r) v (SF_Supervisor r)
    (Marin_Supervisor r).

(** [self.df.at[index, column] = v], [f] being the assignment to the
    column.  [read_excel] gives the frame a range index, so the label of a
    row is its position; [process_records] only writes at labels that
    [iterrows] gave it, which are positions of the frame.  (At a position
    past the end pandas would add a row; the model leaves the rows as
    they are.) *)
Fixpoint df_update (index : nat) (f : row -> row) (rows : list row) : list row :=
  match rows, index with
  | [], _ => []
  | r :: rest, O => f r :: rest
  | r :: rest, S i => r :: df_update i f rest
  end.

(** ** The outside world *)

Inductive service : Type :=
| SF         (* services3.arcgis.com .../Supervisor_Districts/FeatureServer/0/query *)
| Marin      (* gis.marincounty.org .../Supervisor_Districts/MapServer/0/query *)
| Census     (* geocoding.geo.census.gov/geocoder/geographies/coordinates *)
| FCC.       (* geo.fcc.gov/api/census/area *)

(** A geopy [Location]. *)
Record location : Type := mkLocation {
  loc_latitude : Q;
  loc_longitude : Q;
  loc_address : string
}.

(** Every external call, in the order it was made (newest first). *)
Inductive event : Type :=
| EvSleep (milliseconds : nat)
| EvGeocode (query : string)
| EvGet (svc : service) (lat lon : scalar)
| EvStrftime (format : string)
| EvToExcel (filename : string) (snapshot : list row).

(** The answers of the outside world.  The first argument of a service is
    the number of external calls made before it, so that an answer may
    depend on when it is asked. *)
Record world : Type := mkWorld {
  nominatim : nat -> string -> E (option location);
  endpoint : nat -> service -> scalar -> scalar -> E pyval;
  clock : nat -> string -> string;
  disk : nat -> string -> E unit;
  float_repr : Q -> string;
  exn_text : exn -> string
}.

(** [str(v)] and [f"{v}"]. *)
Definition py_str (w : world) (v : scalar) : string :=
  match v with
  | SNone => "None"
  | SNaN => "nan"
  | SBool true => "True"
  | SBool false => "False"
  | SInt z => str_of_Z z
  | SFloat q => float_repr w q
  | SStr s => s
  end.

(** [str(e)] *)
Definition str_exn (w : world) (e : exn) : string :=
  match e with
  | KeyError (SStr k) => if plain k then "'" ++ k ++ "'" else exn_text w e
  | GeocoderTimedOut msg | GeocoderServiceError msg | LibraryError msg => msg
  | _ => exn_text w e
  end.

(** ** The statement monad *)

(** The local variables of [process_records] that outlive one iteration
    of its loop; [None] is a name not bound yet. *)
Record locals : Type := mkLocals {
  var_address : option scalar;
  var_city : option scalar;
  var_zip_code : option scalar;
  var_lat : option scalar;
  var_lon : option scalar
}.

Record frame : Type := mkFrame {
  df : list row;            (* self.df *)
  trace : list event;       (* external calls so far, newest first *)
  processed : nat;
  vars : locals
}.

Inductive outcome (A : Type) : Type :=
| Normal (a : A)
| Continue            (* a [continue] on its way to the loop *)
| Raised (e : exn).
Arguments Normal {A} a.
Arguments Continue {A}.
Arguments Raised {A} e.

Definition M (A : Type) : Type := frame -> outcome A * frame.

Definition ret {A} (a : A) : M A := fun fr => (Normal a, fr).
Definition raise {A} (e : exn) : M A := fun fr => (Raised e, fr).
Definition continue_ {A} : M A := fun fr => (Continue, fr).

Definition bind {A B} (m : M A) (k : A -> M B) : M B :=
  fun fr =>
    match m fr with
    | (Normal a, fr') => k a fr'
    | (Continue, fr') => (Continue, fr')
    | (Raised e, fr') => (Raised e, fr')
    end.

(** [try: body  except Exception as e: handler e] *)
Definition try_except {A} (body : M A) (handler : exn -> M A) : M A :=
  fun fr =>
    match body fr with
    | (Raised e, fr') => handler e fr'
    | other => other
    end.

Definition lift {A} (e : E A) : M A :=
  match e with
  | inl x => raise x
  | inr a => ret a
  end.

Declare Scope stmt_scope.
Delimit Scope stmt_scope with stmt.
Notation "x <- m ;; k" := (bind m (fun x => k))
  (at level 61, m at next level, right associativity) : stmt_scope.
Notation "m ;; k" := (bind m (fun _ => k))
  (at level 61, right associativity) : stmt_scope.

Local Open Scope stmt_scope.

Definition emit (ev : event) : M unit :=
  fun fr => (Normal tt, mkFrame (df fr) (ev :: trace fr) (processed fr) (vars fr)).

(** The number of external calls made so far. *)
Definition ticks : M nat := fun fr => (Normal (length (trace fr)), fr).

Definition get_df : M (list row) := fun fr => (Normal (df fr), fr).
Definition get_processed : M nat := fun fr => (Normal (processed fr), fr).

Definition df_at (index : nat) (f : row -> row) : M unit :=
  fun fr =>
    (Normal tt,
     mkFrame (df_update index f (df fr)) (trace fr) (processed fr) (vars fr)).

Definition set_processed (n : nat) : M unit :=
  fun fr => (Normal tt, mkFrame (df fr) (trace fr) n (vars fr)).

Definition set_vars (f : locals -> locals) : M unit :=
  fun fr => (Normal tt, mkFrame (df fr) (trace fr) (processed fr) (f (vars fr))).

Definition assign_address (v : scalar) : M unit :=
  set_vars (fun l => mkLocals (Some v) (var_city l) (var_zip_code l)
                              (var_lat l) (var_lon l)).
Definition assign_city (v : scalar) : M unit :=
  set_vars (fun l => mkLocals (var_address l) (Some v) (var_zip_code l)
                              (var_lat l) (var_lon l)).
Definition assign_zip_code (v : scalar) : M unit :=
  set_vars (fun l => mkLocals (var_address l) (var_city l) (Some v)
                              (var_lat l) (var_lon l)).
Definition assign_lat (v : scalar) : M unit :=
  set_vars (fun l => mkLocals (var_address l) (var_city l) (var_zip_code l)
                              (Some v) (var_lon l)).
Definition assign_lon (v : scalar) : M unit :=
  set_vars (fun l => mkLocals (var_address l) (var_city l) (var_zip_code l)
                              (var_lat l) (Some v)).

(** Reading a local name: [UnboundLocalError] when nothing was assigned to
    it yet. *)
Definition read_var (name : string) (get : locals -> option scalar) : M scalar :=
  fun fr =>
    match get (vars fr) with
    | Some v => (Normal v, fr)
    | None => (Raised (UnboundLocalError name), fr)
    end.

Definition when (c : bool) (body : M unit) : M unit :=
  if c then body else ret tt.

(** ** Rate limiter and external calls *)

(** [self.geocode_delay = 1.1] and [self.api_delay = 0.5], in
    milliseconds. *)
Definition geocode_delay : nat := 1100.
Definition api_delay : nat := 500.

(** [time.sleep(delay)] *)
Definition sleep (delay : nat) : M unit := emit (EvSleep delay).

(** [self.geolocator.geocode(full_address, timeout=10)] *)
Definition geocode (w : world) (query : string) : M (option location) :=
  t <- ticks ;;
  emit (EvGeocode query) ;;
  lift (nominatim w t query).

(** [response = self.session.get(url, params=params, timeout=...)],
    [response.raise_for_status()] and [data = response.json()]. *)
Definition http_json (w : world) (svc : service) (lat lon : scalar) : M pyval :=
  t <- ticks ;;
  emit (EvGet svc lat lon) ;;
  lift (endpoint w t svc lat lon).

(** [datetime.now().strftime(format)] *)
Definition now_strftime (w : world) (format : string) : M string :=
  t <- ticks ;;
  emit (EvStrftime format) ;;
  ret (clock w t format).

(** [self.df.to_excel(filename, index=False)] *)
Definition to_excel (w : world) (filename : string) : M unit :=
  t <- ticks ;;
  rows <- get_df ;;
  emit (EvToExcel filename rows) ;;
  lift (disk w t filename).

(** ** Geocoder adapter *)

Definition geocode_address (w : world) (address city zip_code : scalar)
  : M (list (string * scalar)) :=
  try_except
    (let full_address :=
       py_str w address ++ ", " ++ py_str w city ++ ", CA " ++ py_str w zip_code in
     sleep geocode_delay ;;
     location <- geocode w full_address ;;
     match location with
     | Some loc =>
         ret [("latitude", SFloat (loc_latitude loc));
              ("longitude", SFloat (loc_longitude loc));
              ("formatted_address", SStr (loc_address loc));
              ("status", SStr "Success")]
     | None => ret [("status", SStr "Not Found")]
     end)
    (fun e =>
       match e with
       | GeocoderTimedOut _ | GeocoderServiceError _ =>
           ret [("status", SStr ("Error: " ++ str_exn w e))]
       | _ => ret [("status", SStr ("Unexpected Error: " ++ str_exn w e))]
       end).

(** ** District resolvers *)

Definition get_sf_supervisorial_district (w : world) (lat lon : scalar)
  : M (list (string * pyval)) :=
  try_except
    (sleep api_delay ;;
     data <- http_json w SF lat lon ;;
     lift (features_district data))
    (fun _ => ret [("district", PStr "Error")]).

Definition get_marin_supervisor_district (w : world) (lat lon : scalar)
  : M (list (string * pyval)) :=
  try_except
    (sleep api_delay ;;
     data <- http_json w Marin lat lon ;;
     lift (features_district data))
    (fun _ => ret [("district", PStr "Error")]).

Definition get_census_data (w : world) (lat lon : scalar)
  : M (list (string * pyval)) :=
  try_except
    (sleep api_delay ;;
     data <- http_json w Census lat lon ;;
     lift (census_fields data))
    (fun _ => ret [("puma", PStr "Error"); ("tract", PStr "Error");
                   ("block", PStr "Error")]).

Definition get_political_districts (w : world) (lat lon : scalar)
  : M (list (string * pyval)) :=
  try_except
    (sleep api_delay ;;
     data <- http_json w FCC lat lon ;;
     lift (political_fields data))
    (fun _ => ret [("congressional", PStr "Error"); ("assembly", PStr "Error");
                   ("senate", PStr "Error")]).

(** ** Checkpoint *)

Definition save_progress (w : world) : M unit :=
  try_except
    (stamp <- now_strftime w "%Y%m%d_%H%M%S" ;;
     let temp_filename := "temp_geocode_" ++ stamp ++ ".xlsx" in
     to_excel w temp_filename)
    (fun _ => ret tt).

(** ** The record processor *)

Definition marin_cities : list string :=
  ["san rafael"; "novato"; "mill valley"; "tiburon"; "sausalito";
   "corte madera"; "larkspur"; "fairfax"; "san anselmo"; "ross";
   "kentfield"; "belvedere"].

Definition or_default (o : option scalar) (default : scalar) : scalar :=
  match o with
  | Some v => v
  | None => default
  end.

(** The [try] block of one iteration of the loop of [process_records],
    for the pair [(index, row)] that [iterrows] yields. *)
Definition record_body (w : world) (index : nat) (r : row) : M unit :=
  (if notna (Latitude r) && notna (Longitude r) then
     assign_lat (Latitude r) ;;
     assign_lon (Longitude r)
   else
     assign_address (or_default (Person_Address r) (SStr "")) ;;
     assign_city (or_default (Person_city r) (SStr "")) ;;
     assign_zip_code (or_default (Person_Zip_Code r) (SStr "")) ;;
     address <- read_var "address" var_address ;;
     city <- read_var "city" var_city ;;
     zip_code <- read_var "zip_code" var_zip_code ;;
     if negb (py_all [address; city; zip_code]) then
       df_at index (set_Geocoding_Status (SStr "Missing Address Data")) ;;
       continue_
     else
       geocode_result <- geocode_address w address city zip_code ;;
       status <- lift (dict_getitem geocode_result "status") ;;
       if eq_str status "Success" then
         lat <- lift (dict_getitem geocode_result "latitude") ;;
         assign_lat lat ;;
         lon <- lift (dict_getitem geocode_result "longitude") ;;
         assign_lon lon ;;
         df_at index (set_Latitude lat) ;;
         df_at index (set_Longitude lon) ;;
         formatted <- lift (dict_getitem geocode_result "formatted_address") ;;
         df_at index (set_Geocoded_Address formatted) ;;
         df_at index (set_Geocoding_Status (SStr "Success"))
       else
         df_at index (set_Geocoding_Status status) ;;
         continue_) ;;
  (* Get SF Sups District *)
  city <- read_var "city" var_city ;;
  when (contains "san francisco" (lower (py_str w city)))
    (lat <- read_var "lat" var_lat ;;
     lon <- read_var "lon" var_lon ;;
     sf_district <- get_sf_supervisorial_district w lat lon ;;
     district <- lift (dict_getitem sf_district "district") ;;
     df_at index (set_SF_Supervisorial_District district) ;;
     supervisor <- lift (dict_getitem sf_district "supervisor") ;;
     df_at index (set_SF_Supervisor supervisor)) ;;
  (* Get Marin County Sups District *)
  city <- read_var "city" var_city ;;
  when (existsb (fun marin_city => contains marin_city (lower (py_str w city)))
                marin_cities)
    (lat <- read_var "lat" var_lat ;;
     lon <- read_var "lon" var_lon ;;
     marin_district <- get_marin_supervisor_district w lat lon ;;
     district <- lift (dict_getitem marin_district "district") ;;
     df_at index (set_Marin_Supervisor_District district) ;;
     supervisor <- lift (dict_getitem marin_district "supervisor") ;;
     df_at index (set_Marin_Supervisor supervisor)) ;;
  (* Get Census data *)
  lat <- read_var "lat" var_lat ;;
  lon <- read_var "lon" var_lon ;;
  census_data <- get_census_data w lat lon ;;
  puma <- lift (dict_getitem census_data "puma") ;;
  df_at index (set_Census_PUMA puma) ;;
  tract <- lift (dict_getitem census_data "tract") ;;
  df_at index (set_Census_Tract tract) ;;
  block <- lift (dict_getitem census_data "block") ;;
  df_at index (set_Census_Block block) ;;
  (* Get Political districts *)
  lat <- read_var "lat" var_lat ;;
  lon <- read_var "lon" var_lon ;;
  political_districts <- get_political_districts w lat lon ;;
  congressional <- lift (dict_getitem political_districts "congressional") ;;
  df_at index (set_Congressional_District congressional) ;;
  assembly <- lift (dict_getitem political_districts "assembly") ;;
  df_at index (set_CA_Assembly_District assembly) ;;
  senate <- lift (dict_getitem political_districts "senate") ;;
  df_at index (set_CA_Senate_District senate) ;;
  (* Update timestamp *)
  stamp <- now_strftime w "%Y-%m-%d %H:%M:%S" ;;
  df_at index (set_Last_Updated (SStr stamp)) ;;
  n <- get_processed ;;
  set_processed (n + 1) ;;
  (* Save progress every 10 records *)
  n <- get_processed ;;
  when (Nat.eqb (n mod 10) 0) (save_progress w).

(** One iteration: the [try] block and its [except Exception] clause. *)
Definition iteration (w : world) (index : nat) (r : row) : M unit :=
  try_except
    (record_body w index r)
    (fun e =>
       df_at index
         (set_Geocoding_Status (SStr ("Processing Error: " ++ str_exn w e))) ;;
       continue_).

(** [for index, row in self.df.iterrows(): ...]; a [continue] moves on to
    the next pair, an exception that leaves an iteration leaves the loop. *)
Fixpoint for_rows (w : world) (pairs : list (nat * row)) : M unit :=
  match pairs with
  | [] => ret tt
  | (index, r) :: rest =>
      fun fr =>
        match iteration w index r fr with
        | (Raised e, fr') => (Raised e, fr')
        | (_, fr') => for_rows w rest fr'
        end
  end.

(** The pairs [iterrows] yields: taken from the frame as it is when the
    loop starts. *)
Definition iterrows (rows : list row) : list (nat * row) :=
  combine (seq 0 (length rows)) rows.

(** [DistrictLookup], as far as [process_records] uses it: [self.df] and
    the external calls made through [self.geolocator] and [self.session]. *)
Record DistrictLookup : Type := mkLookup {
  self_df : option (list row);
  calls : list event
}.

Definition no_locals : locals := mkLocals None None None None None.

(** [process_records]: the value returned (or the exception that left
    it), and the object afterwards. *)
Definition process_records (w : world) (self : DistrictLookup)
  : outcome bool * DistrictLookup :=
  match self_df self with
  | None => (Normal false, self)
  | Some rows =>
      let start := mkFrame rows (calls self) 0 no_locals in
      match for_rows w (iterrows rows) start with
      | (Raised e, fr) => (Raised e, mkLookup (Some (df fr)) (trace fr))
      | (_, fr) => (Normal true, mkLookup (Some (df fr)) (trace fr))
      end
  end.


(** ** Loading the sheet *)

(** A frame as [pd.read_excel] returns it: the number of records and the
    columns in their order, each with one cell per record. *)
Record sheet : Type := mkSheet {
  nrows : nat;
  columns : list (string * list scalar)
}.

(** The columns [load_data] adds when the sheet lacks them. *)
Definition new_columns : list string :=
  ["Latitude"; "Longitude"; "Geocoded_Address";
   "SF_Supervisorial_District";
   "Marin_Supervisor_District";
   "Congressional_District";
   "Census_PUMA"; "Census_Tract"; "Census_Block";
   "CA_Assembly_District";
   "CA_Senate_District";
   "Geocoding_Status"; "Last_Updated"].

(** [col in self.df.columns] *)
Definition has_column (col : string) (sh : sheet) : bool :=
  match lookup col (columns sh) with
  | Some _ => true
  | None => false
  end.

(** [self.df[col] = None] for a column the frame does not have. *)
Definition add_column (col : string) (sh : sheet) : sheet :=
  mkSheet (nrows sh) (columns sh ++ [(col, repeat SNone (nrows sh))])%list.

(** [for col in new_columns: if col not in self.df.columns: ...] *)
Definition add_new_columns (sh : sheet) : sheet :=
  fold_left (fun df col => if has_column col df then df else add_column col df)
            new_columns sh.

(** The cell of a column at a record, when the column is there. *)
Definition cell (sh : sheet) (col : string) (i : nat) : option scalar :=
  match lookup col (columns sh) with
  | Some cells => nth_error cells i
  | None => None
  end.

Definition cell_or_none (sh : sheet) (col : string) (i : nat) : scalar :=
  or_default (cell sh col i) SNone.

(** The record at position [i], as [iterrows] and [df.at] see it. *)
Definition row_at (sh : sheet) (i : nat) : row :=
  mkRow (cell sh "Person Address" i)
        (cell sh "Person city" i)
        (cell sh "Person Zip Code" i)
        (cell_or_none sh "Latitude" i)
        (cell_or_none sh "Longitude" i)
        (cell_or_none sh "Geocoded_Address" i)
        (PScalar (cell_or_none sh "SF_Supervisorial_District" i))
        (PScalar (cell_or_none sh "Marin_Supervisor_District" i))
        (PScalar (cell_or_none sh "Congressional_District" i))
        (PScalar (cell_or_none sh "Census_PUMA" i))
        (PScalar (cell_or_none sh "Census_Tract" i))
        (PScalar (cell_or_none sh "Census_Block" i))
        (PScalar (cell_or_none sh "CA_Assembly_District" i))
        (PScalar (cell_or_none sh "CA_Senate_District" i))
        (cell_or_none sh "Geocoding_Status" i)
        (cell_or_none sh "Last_Updated" i)
        (option_map PScalar (cell sh "SF_Supervisor" i))
        (option_map PScalar (cell sh "Marin_Supervisor" i)).

Definition records_of (sh : sheet) : list row :=
  map (row_at sh) (seq 0 (nrows sh)).

(** [DistrictLookup(excel_file_path)]: no frame yet, no call made. *)
Definition init : DistrictLookup := mkLookup None [].

(** [load_data], [read] being what [pd.read_excel(self.excel_file_path)]
    does: the frame read, or the exception raised. *)
Definition load_data (read : E sheet) (self : DistrictLookup)
  : bool * DistrictLookup :=
  match read with
  | inr sh => (true, mkLookup (Some (records_of (add_new_columns sh))) (calls self))
  | inl _ => (false, self)
  end.

(** ** Export *)

(** [export_results] on a loaded frame. *)
Definition export_results (w : world) (output_filename : option string)
  : M (option string) :=
  output_filename <-
    match output_filename with
    | None =>
        timestamp <- now_strftime w "%Y%m%d_%H%M%S" ;;
        ret ("Geocoded_ActiveParticipants_" ++ timestamp ++ ".xlsx")
    | Some name => ret name
    end ;;
  try_except
    (to_excel w output_filename ;;
     ret (Some output_filename))
    (fun _ => ret None).

(** [export_results] as a method.  Without a frame ([self.df] is [None])
    the access [self.df.to_excel] raises inside the [try]: nothing is
    written and [None] is returned. *)
Definition export_results_of (w : world) (output_filename : option string)
           (self : DistrictLookup) : outcome (option string) * DistrictLookup :=
  match self_df self with
  | Some rows =>
      match export_results w output_filename
              (mkFrame rows (calls self) 0 no_locals) with
      | (o, fr) => (o, mkLookup (Some (df fr)) (trace fr))
      end
  | None =>
      match output_filename with
      | None =>
          (Normal None,
           mkLookup None (EvStrftime "%Y%m%d_%H%M%S" :: calls self))
      | Some _ => (Normal None, self)
      end
  end.

(** ** The driver *)

(** [main()], [read] being what [pd.read_excel] does on the configured
    path: the object when [main] returns, or the exception that left it. *)
Definition main (w : world) (read : E sheet) : outcome unit * DistrictLookup :=
  let lookup := init in
  match load_data read lookup with
  | (false, lookup) => (Normal tt, lookup)
  | (true, lookup) =>
      match process_records w lookup with
      | (Normal false, lookup) => (Normal tt, lookup)
      | (Normal true, lookup) =>
          match export_results_of w None lookup with
          | (Raised e, lookup) => (Raised e, lookup)
          | (_, lookup) => (Normal tt, lookup)
          end
      | (Continue, lookup) => (Normal tt, lookup)
      | (Raised e, lookup) => (Raised e, lookup)
      end
  end.
(** * Vocabulary of the properties *)

(** ** Reading a trace *)

Definition is_geocode (ev : event) : bool :=
  match ev with EvGeocode _ => true | _ => false end.

Definition is_lookup (ev : event) : bool :=
  match ev with EvGet _ _ _ => true | _ => false end.

Definition service_eqb (a b : service) : bool :=
  match a, b with
  | SF, SF | Marin, Marin | Census, Census | FCC, FCC => true
  | _, _ => false
  end.

Definition is_lookup_of (svc : service) (ev : event) : bool :=
  match ev with EvGet s _ _ => service_eqb s svc | _ => false end.



Definition count (p : event -> bool) (tr : list event) : nat :=
  length (filter p tr).

(** The queries sent to the geocoding service, newest first. *)
Fixpoint submitted_queries (tr : list event) : list string :=
  match tr with
  | [] => []
  | EvGeocode q :: rest => q :: submitted_queries rest
  | _ :: rest => submitted_queries rest
  end.

(** ** Frames *)

Definition logged (evs : list event) (fr : frame) : frame :=
  mkFrame (df fr) (evs ++ trace fr)%list (processed fr) (vars fr).

Definition written (index : nat) (f : row -> row) (fr : frame) : frame :=
  mkFrame (df_update index f (df fr)) (trace fr) (processed fr) (vars fr).

(** The frame once [address], [city] and [zip_code] are assigned. *)
Definition with_inputs (a c z : scalar) (fr : frame) : frame :=
  mkFrame (df fr) (trace fr) (processed fr)
    (mkLocals (Some a) (Some c) (Some z)
              (var_lat (vars fr)) (var_lon (vars fr))).

(** ** What a resolver returns *)

Definition resolver (svc : service)
  : world -> scalar -> scalar -> M (list (string * pyval)) :=
  match svc with
  | SF => get_sf_supervisorial_district
  | Marin => get_marin_supervisor_district
  | Census => get_census_data
  | FCC => get_political_districts
  end.

Definition extraction (svc : service) : pyval -> E (list (string * pyval)) :=
  match svc with
  | SF | Marin => features_district
  | Census => census_fields
  | FCC => political_fields
  end.

Definition fields_of (svc : service) : list string :=
  match svc with
  | SF | Marin => ["district"]
  | Census => ["puma"; "tract"; "block"]
  | FCC => ["congressional"; "assembly"; "senate"]
  end.

Definition all_fields (svc : service) (v : pyval) : list (string * pyval) :=
  map (fun f => (f, v)) (fields_of svc).

(** The dict a resolver returns when the service's reply is [reply]. *)
Definition answer (svc : service) (reply : E pyval) : list (string * pyval) :=
  match ebind reply (extraction svc) with
  | inl _ => all_fields svc (PStr "Error")
  | inr d => d
  end.
(** ** No match and failure *)

Inductive lookup_outcome : Type :=
| NoMatch         (* a well-formed body whose feature or result list is empty *)
| LookupFailed.   (* the request or the handling of its body raised *)

Definition sentinel (o : lookup_outcome) : pyval :=
  match o with
  | NoMatch => PNone
  | LookupFailed => PStr "Error"
  end.

Definition empty_list_at (key : string) (data : pyval) : bool :=
  match data with
  | PDict entries =>
      match lookup key entries with
      | Some (PList []) => true
      | _ => false
      end
  | _ => false
  end.

Definition level_empty (geographies : list (string * pyval)) (level : string)
  : bool :=
  match lookup level geographies with
  | None | Some (PList []) => true
  | _ => false
  end.

(** A well-formed body that names no feature: an empty ["features"] list
    (ArcGIS services), an empty ["results"] list (FCC), geography levels
    that are empty or left out (Census). *)
Definition no_match (svc : service) (data : pyval) : bool :=
  match svc with
  | SF | Marin => empty_list_at "features" data
  | FCC => empty_list_at "results" data
  | Census =>
      match data with
      | PDict entries =>
          match lookup "result" entries with
          | Some (PDict result) =>
              match lookup "geographies" result with
              | Some (PDict geographies) =>
                  level_empty geographies "Public Use Microdata Areas"
                  && level_empty geographies "Census Tracts"
                  && level_empty geographies "Census Blocks"
              | _ => false
              end
          | _ => false
          end
      | _ => false
      end
  end.

Definition observed (svc : service) (reply : E pyval) (o : lookup_outcome)
  : bool :=
  match o, reply with
  | NoMatch, inr data => no_match svc data
  | NoMatch, inl _ => false
  | LookupFailed, _ =>
      match ebind reply (extraction svc) with
      | inl _ => true
      | inr _ => false
      end
  end.

(** ** The geocoder's side *)

(** The free-text query [geocode_address] builds. *)
Definition full_address (w : world) (address city zip_code : scalar) : string :=
  py_str w address ++ ", " ++ py_str w city ++ ", CA " ++ py_str w zip_code.

(** The dict [geocode_address] returns when the service's reply is
    [reply]. *)
Definition geocode_result_of (w : world) (reply : E (option location))
  : list (string * scalar) :=
  match reply with
  | inr (Some loc) =>
      [("latitude", SFloat (loc_latitude loc));
       ("longitude", SFloat (loc_longitude loc));
       ("formatted_address", SStr (loc_address loc));
       ("status", SStr "Success")]
  | inr None => [("status", SStr "Not Found")]
  | inl (GeocoderTimedOut msg) => [("status", SStr ("Error: " ++ msg))]
  | inl (GeocoderServiceError msg) => [("status", SStr ("Error: " ++ msg))]
  | inl e => [("status", SStr ("Unexpected Error: " ++ str_exn w e))]
  end.

(** ** The invariant of the dataset *)

(** A row that says ["Success"] has both coordinates. *)
Definition row_ok (r : row) : bool :=
  implb (eq_str (Geocoding_Status r) "Success")
        (notna (Latitude r) && notna (Longitude r)).

Definition coordinates_known (rows : list row) : Prop :=
  Forall (fun r => row_ok r = true) rows.

(** ** Inputs of one record *)



(** A [DistrictLookup] on which [load_data] has succeeded and nothing else
    has run. *)
Definition loaded (rows : list row) : DistrictLookup := mkLookup (Some rows) [].

(** The frame in which the loop of [process_records] starts. *)
Definition start_frame (rows : list row) (tr : list event) : frame :=
  mkFrame rows tr 0 no_locals.

(** The dataset and the external calls once [process_records] is over. *)
Definition final_rows (result : outcome bool * DistrictLookup) : list row :=
  match self_df (snd result) with
  | Some rows => rows
  | None => []
  end.

Definition final_calls (result : outcome bool * DistrictLookup) : list event :=
  calls (snd result).

(** ** Counters *)


(** ** The query as the specification words it *)

(** ["{address}, {city} {state} {postal_code}"]: address, comma, city,
    space, state, space, postal code. *)
Definition spec_query (address city state postal_code : string) : string :=
  address ++ ", " ++ city ++ " " ++ state ++ " " ++ postal_code.

(** ** Scenarios *)

(** A row as [load_data] leaves it: the three inputs, every added column
    [None]. *)
Definition blank_row (address city zip_code : scalar) : row :=
  mkRow (Some address) (Some city) (Some zip_code) SNone SNone SNone
        PNone PNone PNone PNone PNone PNone PNone PNone SNone SNone None None.

Definition city_hall : location :=
  mkLocation (377793 # 10000)%Q (-1224193 # 10000)%Q "City Hall, SF, CA".

Definition city_hall_row : row :=
  blank_row (SStr "1 Dr Carlton B Goodlett Pl") (SStr "San Francisco")
            (SStr "94102").

Definition oakland_row : row :=
  blank_row (SStr "1 Frank H Ogawa Plaza") (SStr "Oakland") (SStr "94612").

(** The Oakland record with coordinates already in the sheet. *)
Definition geocoded_oakland_row : row :=
  set_Longitude (SFloat (-1222712 # 10000)%Q)
    (set_Latitude (SFloat (378044 # 10000)%Q) oakland_row).

(** A San Francisco record with coordinates already in the sheet. *)
Definition geocoded_sf_row : row :=
  set_Longitude (SFloat (-1224193 # 10000)%Q)
    (set_Latitude (SFloat (377793 # 10000)%Q)
       (blank_row (SStr "1 Dr Carlton B Goodlett Pl") (SStr "SAN FRANCISCO")
                  (SStr "94102"))).

(** A record whose address cell is blank in the sheet. *)
Definition blank_address_row : row :=
  blank_row SNaN (SStr "Oakland") (SStr "94612").



(** The body of the municipal service for a point of district 6. *)
Definition district_six : pyval :=
  PDict [("features",
          PList [PDict [("attributes", PDict [("DISTRICT", PInt 6)])]])].

Definition no_features : pyval := PDict [("features", PList [])].
Definition no_results : pyval := PDict [("results", PList [])].

Definition census_codes : pyval :=
  PDict [("result",
          PDict [("geographies",
                  PDict [("Public Use Microdata Areas",
                          PList [PDict [("PUMA", PStr "07503")]]);
                         ("Census Tracts",
                          PList [PDict [("TRACT", PStr "012401")]]);
                         ("Census Blocks",
                          PList [PDict [("BLOCK", PStr "1000")]])])])].

Definition political_codes : pyval :=
  PDict [("results",
          PList [PDict [("congress_district", PStr "11");
                        ("state_lower_district", PStr "17");
                        ("state_upper_district", PStr "11")]])].

(** A world in which every service fails. *)
Definition offline : world :=
  mkWorld (fun _ _ => inl (GeocoderServiceError "offline"))
          (fun _ _ _ _ => inl (LibraryError "offline"))
          (fun _ _ => "2024-01-01 00:00:00")
          (fun _ _ => inr tt)
          (fun _ => "0.0")
          (fun _ => "").

(** The mocks of the end-to-end scenario on top of [w0]: the geocoder
    finds City Hall, the municipal service answers district 6, the census
    and political services answer fixed codes. *)
Definition scenario_world (w0 : world) : world :=
  mkWorld (fun _ _ => inr (Some city_hall))
          (fun t svc lat lon =>
             match svc with
             | SF => inr district_six
             | Marin => endpoint w0 t svc lat lon
             | Census => inr census_codes
             | FCC => inr political_codes
             end)
          (clock w0) (disk w0) (float_repr w0) (exn_text w0).



(** A world whose district services answer well-formed bodies that name
    no feature. *)
Definition no_match_world : world :=
  mkWorld (fun _ _ => inr (Some city_hall))
          (fun _ svc _ _ =>
             match svc with
             | SF | Marin => inr no_features
             | Census =>
                 inr (PDict [("result",
                              PDict [("geographies",
                                      PDict [("Census Tracts", PList [])])])])
             | FCC => inr no_results
             end)
          (clock offline) (disk offline) (float_repr offline)
          (exn_text offline).

(** ** Vocabulary of the further properties *)

(** The geocoding service found a location. *)
Definition is_located (reply : E (option location)) : bool :=
  match reply with
  | inr (Some _) => true
  | _ => false
  end.

(** The exceptions of the first [except] clause of [geocode_address]. *)
Definition is_geocoder_error (e : exn) : bool :=
  match e with
  | GeocoderTimedOut _ | GeocoderServiceError _ => true
  | _ => false
  end.

(** [d.get(k, default)] on the entries of a dict. *)
Definition get_or (entries : list (string * pyval)) (k : string)
           (default : pyval) : pyval :=
  match lookup k entries with
  | Some v => v
  | None => default
  end.

(** A census body without its ["result"] section, or whose result has no
    ["geographies"] section. *)
Definition no_geographies (data : pyval) : bool :=
  match data with
  | PDict entries =>
      match lookup "result" entries with
      | None => true
      | Some (PDict result) =>
          match lookup "geographies" result with
          | None => true
          | Some _ => false
          end
      | Some _ => false
      end
  | _ => false
  end.


(** The input columns of a record. *)
Definition input_columns (r : row)
  : option scalar * option scalar * option scalar :=
  (Person_Address r, Person_city r, Person_Zip_Code r).

(** Every request in the trace comes right after the pause of its service
    class: [geocode_delay] before a geocoding, [api_delay] before a
    district lookup. *)
Fixpoint throttled (tr : list event) : bool :=
  match tr with
  | [] => true
  | EvGeocode _ :: rest =>
      match rest with
      | EvSleep d :: _ => Nat.eqb d geocode_delay && throttled rest
      | _ => false
      end
  | EvGet _ _ _ :: rest =>
      match rest with
      | EvSleep d :: _ => Nat.eqb d api_delay && throttled rest
      | _ => false
      end
  | _ :: rest => throttled rest
  end.




(** A sheet with the three input columns and a [Latitude] column of a
    previous run, two records. *)
Definition resumed_sheet : sheet :=
  mkSheet 2
    [("Person Address", [SStr "1 Frank H Ogawa Plaza"; SStr "1 Main St"]);
     ("Person city", [SStr "Oakland"; SStr "Berkeley"]);
     ("Person Zip Code", [SInt 94612; SInt 94704]);
     ("Latitude", [SFloat (378044 # 10000)%Q; SNaN])].

Definition berkeley_row : row :=
  blank_row (SStr "2180 Milvia St") (SStr "Berkeley") (SStr "94704").


(** A municipal body whose first feature has no [DISTRICT] attribute. *)
Definition unnamed_district : pyval :=
  PDict [("features",
          PList [PDict [("attributes", PDict [("NAME", PStr "Six")])];
                 PDict [("attributes", PDict [("DISTRICT", PInt 7)])]])].

(** * Proofs *)

(** ** What a resolver returns *)

Lemma resolver_eq (svc : service) (w : world) (lat lon : scalar) (fr : frame) :
  resolver svc w lat lon fr =
  (Normal (answer svc (endpoint w (S (length (trace fr))) svc lat lon)),
   logged [EvGet svc lat lon; EvSleep api_delay] fr).
Proof.
  destruct svc; cbn;
    unfold get_sf_supervisorial_district, get_marin_supervisor_district,
      get_census_data, get_political_districts, try_except, bind, answer;
    cbn;
    match goal with
    | |- context [endpoint w ?t ?s lat lon] =>
        destruct (endpoint w t s lat lon) as [e | data]; cbn;
        [ reflexivity | ]
    end;
    match goal with
    | |- context [lift ?x] => destruct x; reflexivity
    end.
Qed.

Lemma features_district_shape (data : pyval) (d : list (string * pyval)) :
  features_district data = inr d -> exists v, d = [("district", v)].
Proof.
  unfold features_district, ebind, eret.
  repeat match goal with
         | |- context [match ?x with _ => _ end] => destruct x
         end;
    intros H; inversion H; eauto.
Qed.

Lemma census_fields_shape (data : pyval) (d : list (string * pyval)) :
  census_fields data = inr d ->
  exists p t b, d = [("puma", p); ("tract", t); ("block", b)].
Proof.
  unfold census_fields, ebind, eret.
  repeat match goal with
         | |- context [match ?x with _ => _ end] => destruct x
         end;
    intros H; inversion H; eauto.
Qed.

Lemma political_fields_shape (data : pyval) (d : list (string * pyval)) :
  political_fields data = inr d ->
  exists c a s, d = [("congressional", c); ("assembly", a); ("senate", s)].
Proof.
  unfold political_fields, ebind, eret.
  repeat match goal with
         | |- context [match ?x with _ => _ end] => destruct x
         end;
    intros H; inversion H; eauto.
Qed.

(** Whatever the service does, a resolver returns a dict with exactly its
    own keys. *)
Lemma answer_keys (svc : service) (reply : E pyval) :
  map fst (answer svc reply) = fields_of svc.
Proof.
  unfold answer.
  destruct (ebind reply (extraction svc)) as [e | d] eqn:H.
  - destruct svc; reflexivity.
  - destruct reply as [e | data]; [discriminate | ].
    cbn in H.
    destruct svc; cbn in H.
    + apply features_district_shape in H as [v ->]; reflexivity.
    + apply features_district_shape in H as [v ->]; reflexivity.
    + apply census_fields_shape in H as (p & t & b & ->); reflexivity.
    + apply political_fields_shape in H as (c & a & s & ->); reflexivity.
Qed.

Lemma empty_list_at_inv (key : string) (data : pyval) :
  empty_list_at key data = true ->
  exists entries, data = PDict entries /\ lookup key entries = Some (PList []).
Proof.
  destruct data as [s | items | entries]; cbn; try discriminate.
  destruct (lookup key entries) as [[s | [ | x items] | d] | ] eqn:H;
    try discriminate.
  intros _. eauto.
Qed.

Lemma features_district_no_match (data : pyval) :
  empty_list_at "features" data = true ->
  features_district data = inr [("district", PNone)].
Proof.
  intros H. apply empty_list_at_inv in H as (entries & -> & H).
  unfold features_district. cbn. unfold dict_getitem. rewrite H. reflexivity.
Qed.

Lemma political_fields_no_match (data : pyval) :
  empty_list_at "results" data = true ->
  political_fields data =
  inr [("congressional", PNone); ("assembly", PNone); ("senate", PNone)].
Proof.
  intros H. apply empty_list_at_inv in H as (entries & -> & H).
  unfold political_fields. cbn. unfold dict_getitem. rewrite H. reflexivity.
Qed.

Lemma geography_level_empty (geographies : list (string * pyval))
      (level field : string) :
  level_empty geographies level = true ->
  geography_level (PDict geographies) level field = inr PNone.
Proof.
  unfold level_empty, geography_level. cbn. unfold dict_getitem.
  destruct (lookup level geographies) as [[s | [ | x items] | d] | ];
    try discriminate; reflexivity.
Qed.

Lemma census_fields_no_match (data : pyval) :
  no_match Census data = true ->
  census_fields data = inr [("puma", PNone); ("tract", PNone); ("block", PNone)].
Proof.
  cbn. destruct data as [s | items | entries]; try discriminate.
  destruct (lookup "result" entries) as [[s | items | result] | ] eqn:Hr;
    try discriminate.
  destruct (lookup "geographies" result) as [[s | items | geo] | ] eqn:Hg;
    try discriminate.
  intros H. apply andb_prop in H as [H Hb]. apply andb_prop in H as [Hp Ht].
  unfold census_fields. cbn -[geography_level]. unfold dict_getitem.
  rewrite Hr. cbn -[geography_level]. unfold dict_getitem.
  rewrite Hg. cbn -[geography_level].
  rewrite (geography_level_empty _ _ _ Hp). cbn -[geography_level].
  rewrite (geography_level_empty _ _ _ Ht). cbn -[geography_level].
  rewrite (geography_level_empty _ _ _ Hb). reflexivity.
Qed.

(** C4.  For each of the four resolvers and every coordinate: when the
    service answers a well-formed body with an empty feature or result
    list, the resolver returns [None] in each of its fields; when the
    request or the handling of its body raises, it returns the string
    ['Error'] in each of its fields; and the two values differ in every
    field. *)
Theorem resolver_none_or_error
    (svc : service) (w : world) (lat lon : scalar) (fr : frame)
    (o : lookup_outcome) :
  observed svc (endpoint w (S (length (trace fr))) svc lat lon) o = true ->
  fst (resolver svc w lat lon fr) = Normal (all_fields svc (sentinel o))
  /\ (forall f, In f (fields_of svc) ->
        lookup f (all_fields svc (sentinel NoMatch))
        <> lookup f (all_fields svc (sentinel LookupFailed))).
Proof.
  intros H. split.
  - rewrite resolver_eq. cbn [fst]. f_equal. unfold answer.
    destruct o.
    + destruct (endpoint w (S (length (trace fr))) svc lat lon) as [e | data];
        cbn in H; [discriminate | ].
      cbn [ebind].
      destruct svc; cbn in H; cbn [extraction].
      * rewrite (features_district_no_match _ H). reflexivity.
      * rewrite (features_district_no_match _ H). reflexivity.
      * rewrite (census_fields_no_match _ H). reflexivity.
      * rewrite (political_fields_no_match _ H). reflexivity.
    + cbn in H.
      destruct (ebind (endpoint w (S (length (trace fr))) svc lat lon)
                      (extraction svc)); [reflexivity | discriminate].
  - intros f Hf. destruct svc; cbn in Hf;
      repeat (destruct Hf as [<- | Hf]; [cbn; discriminate | ]);
      contradiction.
Qed.

(** ** The adapters as equations *)

Lemma geocode_address_eq (w : world) (a c z : scalar) (fr : frame) :
  geocode_address w a c z fr =
  (Normal (geocode_result_of w
             (nominatim w (S (length (trace fr))) (full_address w a c z))),
   logged [EvGeocode (full_address w a c z); EvSleep geocode_delay] fr).
Proof.
  unfold geocode_address, try_except, bind, geocode_result_of, full_address.
  cbn.
  destruct (nominatim w _ _) as [e | [loc | ]]; cbn; try reflexivity.
  destruct e; reflexivity.
Qed.

Lemma save_progress_eq (w : world) (fr : frame) :
  save_progress w fr =
  (Normal tt,
   logged [EvToExcel
             ("temp_geocode_"
              ++ clock w (length (trace fr)) "%Y%m%d_%H%M%S" ++ ".xlsx")
             (df fr);
           EvStrftime "%Y%m%d_%H%M%S"] fr).
Proof.
  unfold save_progress, try_except, bind. cbn.
  match goal with
  | |- context [lift ?x] => destruct x as [e | []]; reflexivity
  end.
Qed.

Lemma get_sf_eq (w : world) (lat lon : scalar) (fr : frame) :
  get_sf_supervisorial_district w lat lon fr =
  (Normal (answer SF (endpoint w (S (length (trace fr))) SF lat lon)),
   logged [EvGet SF lat lon; EvSleep api_delay] fr).
Proof. exact (resolver_eq SF w lat lon fr). Qed.

Lemma get_marin_eq (w : world) (lat lon : scalar) (fr : frame) :
  get_marin_supervisor_district w lat lon fr =
  (Normal (answer Marin (endpoint w (S (length (trace fr))) Marin lat lon)),
   logged [EvGet Marin lat lon; EvSleep api_delay] fr).
Proof. exact (resolver_eq Marin w lat lon fr). Qed.

Lemma get_census_eq (w : world) (lat lon : scalar) (fr : frame) :
  get_census_data w lat lon fr =
  (Normal (answer Census (endpoint w (S (length (trace fr))) Census lat lon)),
   logged [EvGet Census lat lon; EvSleep api_delay] fr).
Proof. exact (resolver_eq Census w lat lon fr). Qed.

Lemma get_political_eq (w : world) (lat lon : scalar) (fr : frame) :
  get_political_districts w lat lon fr =
  (Normal (answer FCC (endpoint w (S (length (trace fr))) FCC lat lon)),
   logged [EvGet FCC lat lon; EvSleep api_delay] fr).
Proof. exact (resolver_eq FCC w lat lon fr). Qed.

Lemma answer_district (svc : service) (reply : E pyval) :
  fields_of svc = ["district"] ->
  exists v, answer svc reply = [("district", v)].
Proof.
  intros H. pose proof (answer_keys svc reply) as K. rewrite H in K.
  destruct (answer svc reply) as [ | [k v] [ | x rest]]; try discriminate.
  cbn in K. injection K as ->. eauto.
Qed.

Lemma answer_census (reply : E pyval) :
  exists p t b,
    answer Census reply = [("puma", p); ("tract", t); ("block", b)].
Proof.
  pose proof (answer_keys Census reply) as K.
  destruct (answer Census reply)
    as [ | [k1 v1] [ | [k2 v2] [ | [k3 v3] [ | x rest]]]]; try discriminate.
  cbn in K. injection K as -> -> ->. eauto.
Qed.

Lemma answer_political (reply : E pyval) :
  exists c a s,
    answer FCC reply = [("congressional", c); ("assembly", a); ("senate", s)].
Proof.
  pose proof (answer_keys FCC reply) as K.
  destruct (answer FCC reply)
    as [ | [k1 v1] [ | [k2 v2] [ | [k3 v3] [ | x rest]]]]; try discriminate.
  cbn in K. injection K as -> -> ->. eauto.
Qed.

(** ** Walking through one iteration *)

(** [norm] runs the statement monad as far as it goes, [dicts] evaluates
    the dictionary accesses, [split_scrutinee] decides the next branch:
    an adapter call is replaced by its equation, a condition by its two
    cases.  [paths] iterates the three until every path of the iteration
    is a goal of its own. *)
Ltac norm :=
  cbv beta iota zeta delta
    [bind ret raise continue_ lift emit ticks get_df get_processed df_at
     set_processed set_vars assign_address assign_city assign_zip_code
     assign_lat assign_lon read_var when sleep now_strftime try_except
     df trace processed vars var_address var_city var_zip_code var_lat var_lon
     fst snd logged written with_inputs app eret eraise].

Ltac dicts :=
  cbn [dict_getitem lookup eq_str String.eqb Ascii.eqb Bool.eqb eret eraise].

Ltac split_scrutinee :=
  match goal with
  | |- context [get_sf_supervisorial_district ?w ?a ?b ?f] =>
      rewrite (get_sf_eq w a b f);
      let v := fresh "v" in
      let Hv := fresh "Hv" in
      destruct (answer_district SF (endpoint w (S (length (trace f))) SF a b)
                  eq_refl) as [v Hv];
      rewrite Hv
  | |- context [get_marin_supervisor_district ?w ?a ?b ?f] =>
      rewrite (get_marin_eq w a b f);
      let v := fresh "v" in
      let Hv := fresh "Hv" in
      destruct (answer_district Marin
                  (endpoint w (S (length (trace f))) Marin a b) eq_refl)
        as [v Hv];
      rewrite Hv
  | |- context [get_census_data ?w ?a ?b ?f] =>
      rewrite (get_census_eq w a b f);
      let Hv := fresh "Hv" in
      destruct (answer_census (endpoint w (S (length (trace f))) Census a b))
        as (? & ? & ? & Hv);
      rewrite Hv
  | |- context [get_political_districts ?w ?a ?b ?f] =>
      rewrite (get_political_eq w a b f);
      let Hv := fresh "Hv" in
      destruct (answer_political (endpoint w (S (length (trace f))) FCC a b))
        as (? & ? & ? & Hv);
      rewrite Hv
  | |- context [geocode_address ?w ?a ?b ?c ?f] =>
      rewrite (geocode_address_eq w a b c f);
      let reply := fresh "reply" in
      generalize (nominatim w (S (length (trace f))) (full_address w a b c));
      intros reply; destruct reply as [[] | [ | ]]; cbn [geocode_result_of]
  | |- context [save_progress ?w ?f] => rewrite (save_progress_eq w f)
  | |- context [match ?o with Some _ => _ | None => _ end] =>
      destruct o eqn:?
  | |- context [if ?c then _ else _] => destruct c eqn:?
  end.

Ltac paths := repeat (norm; dicts; try split_scrutinee).

Ltac row_fields :=
  cbn [Latitude Longitude Geocoded_Address Geocoding_Status
       set_Latitude set_Longitude
       set_Geocoded_Address set_Geocoding_Status set_SF_Supervisorial_District
       set_SF_Supervisor set_Marin_Supervisor_District set_Marin_Supervisor
       set_Census_PUMA set_Census_Tract set_Census_Block
       set_Congressional_District set_CA_Assembly_District
       set_CA_Senate_District set_Last_Updated].

(** ** The loop *)

Lemma iteration_outcome (w : world) (index : nat) (r : row) (fr : frame) :
  fst (iteration w index r fr) = Normal tt
  \/ fst (iteration w index r fr) = Continue.
Proof.
  unfold iteration, try_except.
  destruct (record_body w index r fr) as [[[] | | e] fr']; cbn; auto.
Qed.

Lemma for_rows_cons (w : world) (index : nat) (r : row)
      (rest : list (nat * row)) (fr : frame) :
  for_rows w ((index, r) :: rest) fr
  = for_rows w rest (snd (iteration w index r fr)).
Proof.
  cbn [for_rows].
  destruct (iteration_outcome w index r fr) as [H | H];
    destruct (iteration w index r fr) as [o fr']; cbn in H; subst;
    reflexivity.
Qed.

Lemma for_rows_returns (w : world) (pairs : list (nat * row)) (fr : frame) :
  fst (for_rows w pairs fr) = Normal tt.
Proof.
  revert fr. induction pairs as [ | [index r] rest IH]; intros fr.
  - reflexivity.
  - rewrite for_rows_cons. apply IH.
Qed.

Lemma for_rows_invariant (P : frame -> Prop) (w : world) :
  (forall index r fr, P fr -> P (snd (iteration w index r fr))) ->
  forall pairs fr, P fr -> P (snd (for_rows w pairs fr)).
Proof.
  intros step pairs.
  induction pairs as [ | [index r] rest IH]; intros fr H.
  - exact H.
  - rewrite for_rows_cons. apply IH, step, H.
Qed.

Lemma process_records_eq (w : world) (rows : list row) (tr : list event) :
  process_records w (mkLookup (Some rows) tr)
  = (Normal true,
     mkLookup
       (Some (df (snd (for_rows w (iterrows rows) (start_frame rows tr)))))
       (trace (snd (for_rows w (iterrows rows) (start_frame rows tr))))).
Proof.
  unfold process_records, start_frame. cbn [self_df calls].
  pose proof (for_rows_returns w (iterrows rows)
                (mkFrame rows tr 0 no_locals)) as H.
  destruct (for_rows w (iterrows rows) (mkFrame rows tr 0 no_locals))
    as [o fr].
  cbn in H. subst o. reflexivity.
Qed.

(** ** Rows and updates *)

Lemma df_update_fuse (i : nat) (f g : row -> row) (rows : list row) :
  df_update i g (df_update i f rows) = df_update i (fun r => g (f r)) rows.
Proof.
  revert i. induction rows as [ | r rows IH]; intros [ | i]; cbn;
    try reflexivity.
  now rewrite IH.
Qed.

Lemma df_update_map {A} (proj : row -> A) (i : nat) (f : row -> row)
      (rows : list row) :
  (forall r, proj (f r) = proj r) ->
  map proj (df_update i f rows) = map proj rows.
Proof.
  intros H. revert i.
  induction rows as [ | r rows IH]; intros [ | i]; cbn; try reflexivity.
  - now rewrite H.
  - now rewrite IH.
Qed.

Lemma known_update (i : nat) (f : row -> row) (rows : list row) :
  (forall r, row_ok r = true -> row_ok (f r) = true) ->
  coordinates_known rows -> coordinates_known (df_update i f rows).
Proof.
  intros Hf. unfold coordinates_known. revert i.
  induction rows as [ | r rows IH]; intros i H; [destruct i; exact H | ].
  inversion H as [ | ? ? Hr Hrows]; subst.
  destruct i as [ | i]; cbn; constructor; auto.
Qed.

Lemma iteration_keeps_coordinates_known
      (w : world) (index : nat) (r : row) (fr : frame) :
  coordinates_known (df fr) ->
  coordinates_known (df (snd (iteration w index r fr))).
Proof.
  destruct fr as [rows tr p [va vc vz vlat vlon]]. cbn [df]. intros H.
  unfold iteration, record_body.
  paths.
  all: repeat rewrite df_update_fuse.
  all: try assumption.
  all: apply known_update; [ | assumption].
  all: intros row0 Hrow0; unfold row_ok in *; row_fields; try assumption.
  all: reflexivity.
Qed.

(** C9.  Every per-record step keeps the invariant of the dataset: if each
    row whose [Geocoding_Status] is ["Success"] has a non-null [Latitude]
    and a non-null [Longitude] before the step, the same holds after it;
    hence the invariant holds when [process_records] returns. *)
Theorem success_implies_coordinates
    (w : world) (index : nat) (r : row) (fr : frame)
    (rows : list row) (tr : list event) :
  coordinates_known (df fr) ->
  coordinates_known rows ->
  coordinates_known (df (snd (iteration w index r fr)))
  /\ coordinates_known
       (final_rows (process_records w (mkLookup (Some rows) tr))).
Proof.
  intros Hfr Hrows. split.
  - apply iteration_keeps_coordinates_known, Hfr.
  - rewrite process_records_eq. cbn [final_rows snd self_df].
    apply (for_rows_invariant (fun fr => coordinates_known (df fr)) w).
    + intros; now apply iteration_keeps_coordinates_known.
    + exact Hrows.
Qed.

(** ** Counting completions and checkpoints *)






(** ** The geocoder adapter *)

(** C10 (amended).  For every street address, city and postal code given
    as strings, [geocode_address] submits exactly one query, the string
    ["{address}, {city}, CA {postal_code}"]: address, comma, space, city,
    comma, space, the fixed state code [CA], space, postal code. *)
Theorem geocode_query_format
    (w : world) (address city zip_code : string) (fr : frame) :
  submitted_queries
    (trace (snd (geocode_address w (SStr address) (SStr city) (SStr zip_code) fr)))
  = (address ++ ", " ++ city ++ ", CA " ++ zip_code)
      :: submitted_queries (trace fr).
Proof.
  rewrite geocode_address_eq. reflexivity.
Qed.

(** C10 as stated fails: for the City Hall address, no state code makes
    the submitted query equal to ["{address}, {city} {state}
    {postal_code}"]. *)
Lemma geocode_query_not_spec_format :
  ~ exists state,
      submitted_queries
        (trace (snd (geocode_address offline
                       (SStr "1 Dr Carlton B Goodlett Pl")
                       (SStr "San Francisco") (SStr "94102")
                       (start_frame [] []))))
      = [spec_query "1 Dr Carlton B Goodlett Pl" "San Francisco" state "94102"].
Proof.
  intros [state H]. rewrite geocode_address_eq in H.
  cbn in H. discriminate H.
Qed.

(** ** Early exits *)



(** ** The per-record boundary *)


(** ** Records that already have coordinates *)

Ltac count_calls :=
  unfold count;
  cbn [filter is_geocode is_lookup is_lookup_of service_eqb length
       df trace processed snd].

(** X22.  The part of C2 that holds: the geocoder is not called for a
    record whose two coordinates are non-null. *)
Lemma geocoded_record_skips_geocoder
      (w : world) (index : nat) (r : row) (fr : frame) :
  notna (Latitude r) && notna (Longitude r) = true ->
  count is_geocode (trace (snd (iteration w index r fr)))
  = count is_geocode (trace fr).
Proof.
  intros Hc. destruct fr as [rows tr p [va vc vz vlat vlon]].
  unfold iteration, record_body. rewrite Hc.
  paths.
  all: count_calls; reflexivity.
Qed.

(** C2 at a dataset of one record that has coordinates: [city] was never
    assigned, the iteration fails on reading it, and no district service
    is called for the record. *)
Theorem geocoded_record_gets_no_lookups (w : world) :
  final_calls (process_records w (loaded [geocoded_oakland_row])) = []
  /\ final_rows (process_records w (loaded [geocoded_oakland_row]))
     = [set_Geocoding_Status
          (SStr ("Processing Error: " ++ exn_text w (UnboundLocalError "city")))
          geocoded_oakland_row].
Proof.
  split; reflexivity.
Qed.

(** C3 at two datasets.  After a San Francisco record was geocoded, the
    municipal service is called for the Oakland record that follows with
    coordinates in the sheet, and its district is written to that record;
    and it is not called for a lone ["SAN FRANCISCO"] record that has
    coordinates in the sheet. *)
Theorem municipal_lookup_follows_previous_city (w0 w : world) :
  final_calls (process_records (scenario_world w0)
                 (loaded [city_hall_row; geocoded_oakland_row]))
  = [EvGet SF (Latitude geocoded_oakland_row) (Longitude geocoded_oakland_row);
     EvSleep api_delay;
     EvGet SF (SFloat (loc_latitude city_hall)) (SFloat (loc_longitude city_hall));
     EvSleep api_delay;
     EvGeocode "1 Dr Carlton B Goodlett Pl, San Francisco, CA 94102";
     EvSleep geocode_delay]
  /\ map SF_Supervisorial_District
       (final_rows (process_records (scenario_world w0)
                      (loaded [city_hall_row; geocoded_oakland_row])))
     = [PInt 6; PInt 6]
  /\ count (is_lookup_of SF)
       (final_calls (process_records w (loaded [geocoded_sf_row]))) = 0.
Proof.
  repeat split.
Qed.

(** ** The end-to-end scenario *)

(** C1 on the code: in the scenario the record ends with the status
    ["Processing Error: 'supervisor'"]; the district 6 is written, the
    census and political services are not called, their fields and
    [Last_Updated] stay [None]. *)
Theorem city_hall_scenario_fails_on_supervisor (w0 : world) :
  map Geocoding_Status
    (final_rows (process_records (scenario_world w0) (loaded [city_hall_row])))
  = [SStr "Processing Error: 'supervisor'"]
  /\ map SF_Supervisorial_District
       (final_rows (process_records (scenario_world w0) (loaded [city_hall_row])))
     = [PInt 6]
  /\ map (fun r => (Census_PUMA r, Census_Tract r, Census_Block r))
       (final_rows (process_records (scenario_world w0) (loaded [city_hall_row])))
     = [(PNone, PNone, PNone)]
  /\ map (fun r => (Congressional_District r, CA_Assembly_District r,
                    CA_Senate_District r))
       (final_rows (process_records (scenario_world w0) (loaded [city_hall_row])))
     = [(PNone, PNone, PNone)]
  /\ map Last_Updated
       (final_rows (process_records (scenario_world w0) (loaded [city_hall_row])))
     = [SNone]
  /\ final_calls (process_records (scenario_world w0) (loaded [city_hall_row]))
     = [EvGet SF (SFloat (loc_latitude city_hall))
              (SFloat (loc_longitude city_hall));
        EvSleep api_delay;
        EvGeocode "1 Dr Carlton B Goodlett Pl, San Francisco, CA 94102";
        EvSleep geocode_delay].
Proof.
  repeat split.
Qed.

(** ** Blank cells *)

(** C6 at a record whose address cell is blank: NaN is true to [all], the
    geocoder is called with the query ["nan, Oakland, CA 94612"] and the
    status is not ["Missing Address Data"]. *)
Theorem blank_address_is_geocoded (w : world) :
  In (EvGeocode "nan, Oakland, CA 94612")
     (final_calls (process_records w (loaded [blank_address_row])))
  /\ map Geocoding_Status
       (final_rows (process_records w (loaded [blank_address_row])))
     <> [SStr "Missing Address Data"].
Proof.
  unfold loaded. rewrite process_records_eq.
  cbn [final_calls final_rows snd calls self_df iterrows length seq combine].
  rewrite for_rows_cons. cbn [for_rows]. unfold ret. cbn [snd].
  unfold iteration, record_body, start_frame.
  cbn [blank_address_row blank_row Latitude Longitude Person_Address
       Person_city Person_Zip_Code notna andb or_default].
  norm.
  cbn [py_all forallb truthy negb andb String.eqb Ascii.eqb Bool.eqb].
  paths.
  all: split; [cbn; tauto | cbn; intros H; discriminate H].
Qed.

(** ** The municipal resolver after a geocoding *)


(** * Instances *)

Lemma resolver_none_or_error_witness :
  (fst (resolver Census no_match_world
          (Latitude geocoded_oakland_row) (Longitude geocoded_oakland_row)
          (start_frame [] []))
   = Normal [("puma", PNone); ("tract", PNone); ("block", PNone)])
  /\ (fst (resolver FCC offline
             (Latitude geocoded_oakland_row) (Longitude geocoded_oakland_row)
             (start_frame [] []))
      = Normal [("congressional", PStr "Error"); ("assembly", PStr "Error");
                ("senate", PStr "Error")]).
Proof.
  split.
  - apply (resolver_none_or_error Census no_match_world
             (Latitude geocoded_oakland_row) (Longitude geocoded_oakland_row)
             (start_frame [] []) NoMatch).
    reflexivity.
  - apply (resolver_none_or_error FCC offline
             (Latitude geocoded_oakland_row) (Longitude geocoded_oakland_row)
             (start_frame [] []) LookupFailed).
    reflexivity.
Defined.




Lemma success_implies_coordinates_witness :
  coordinates_known [oakland_row]
  /\ coordinates_known
       (df (snd (iteration (scenario_world offline) 0 oakland_row
                   (start_frame [oakland_row] []))))
  /\ coordinates_known
       (final_rows (process_records (scenario_world offline)
                      (mkLookup (Some [oakland_row]) []))).
Proof.
  assert (coordinates_known [oakland_row]) as H
    by (repeat constructor).
  split; [exact H | ].
  apply (success_implies_coordinates (scenario_world offline) 0 oakland_row
           (start_frame [oakland_row] []) [oakland_row] []); exact H.
Defined.

(** * Further properties of the adapters *)

(** X1.  [geocode_address] never raises: it pauses for [geocode_delay],
    asks the geocoding service once, and returns a dict that always has a
    ["status"]; the status is ["Success"] exactly when the service found
    a location, and only then the dict also has ["latitude"],
    ["longitude"] and ["formatted_address"]. *)
Theorem geocode_address_one_attempt
    (w : world) (address city zip_code : scalar) (fr : frame) :
  exists result status,
    geocode_address w address city zip_code fr
    = (Normal result,
       logged [EvGeocode (full_address w address city zip_code);
               EvSleep geocode_delay] fr)
    /\ lookup "status" result = Some (SStr status)
    /\ (status =? "Success")
       = is_located (nominatim w (S (length (trace fr)))
                       (full_address w address city zip_code))
    /\ map fst result
       = if is_located (nominatim w (S (length (trace fr)))
                          (full_address w address city zip_code))
         then ["latitude"; "longitude"; "formatted_address"; "status"]
         else ["status"].
Proof.
  rewrite geocode_address_eq.
  destruct (nominatim w (S (length (trace fr)))
              (full_address w address city zip_code)) as [e | [loc | ]].
  - destruct e; cbn [geocode_result_of];
      eexists; eexists; repeat split; reflexivity.
  - eexists; eexists; repeat split; reflexivity.
  - eexists; eexists; repeat split; reflexivity.
Qed.

(** X2.  When the geocoding service raises, the status is
    ["Error: <message>"] for a time-out or a service error of geopy and
    ["Unexpected Error: <message>"] for any other exception. *)
Theorem geocode_failure_status
    (w : world) (address city zip_code : scalar) (fr : frame) (e : exn) :
  nominatim w (S (length (trace fr))) (full_address w address city zip_code)
  = inl e ->
  fst (geocode_address w address city zip_code fr)
  = Normal [("status",
             SStr ((if is_geocoder_error e then "Error: "
                    else "Unexpected Error: ") ++ str_exn w e))].
Proof.
  intros H. rewrite geocode_address_eq, H.
  destruct e; reflexivity.
Qed.

(** X3.  Each of the four resolvers never raises: it pauses for
    [api_delay], sends one request to its own service with the
    coordinate, changes nothing else, and returns a dict with exactly its
    own keys, whatever the service answers. *)
Theorem resolver_one_request
    (svc : service) (w : world) (lat lon : scalar) (fr : frame) :
  exists d,
    resolver svc w lat lon fr
    = (Normal d, logged [EvGet svc lat lon; EvSleep api_delay] fr)
    /\ map fst d = fields_of svc.
Proof.
  rewrite resolver_eq. eexists. split; [reflexivity | apply answer_keys].
Qed.

(** X4.  The municipal and county resolvers read the first feature only:
    the district is its [DISTRICT] attribute, and the string ['Unknown']
    when the attributes have no [DISTRICT]. *)
Theorem district_of_first_feature
    (entries feature attributes : list (string * pyval))
    (others : list pyval) :
  lookup "features" entries = Some (PList (PDict feature :: others)) ->
  lookup "attributes" feature = Some (PDict attributes) ->
  features_district (PDict entries)
  = inr [("district", get_or attributes "DISTRICT" (PStr "Unknown"))].
Proof.
  intros Hf Ha. unfold features_district. cbn. unfold dict_getitem.
  rewrite Hf. cbn. unfold dict_getitem. rewrite Ha. reflexivity.
Qed.

(** X5.  A census body without a ["result"] section, or whose result has
    no ["geographies"] section, gives [None] in the three census fields,
    not ['Error']. *)
Theorem census_without_geographies (data : pyval) :
  no_geographies data = true ->
  census_fields data
  = inr [("puma", PNone); ("tract", PNone); ("block", PNone)].
Proof.
  destruct data as [s | items | entries]; cbn; try discriminate.
  unfold census_fields. cbn. unfold dict_getitem.
  destruct (lookup "result" entries) as [[s | items | result] | ] eqn:Hr;
    try discriminate; cbn.
  - destruct (lookup "geographies" result) eqn:Hg; try discriminate.
    reflexivity.
  - reflexivity.
Qed.


(** X7.  The political resolver reads the first result only: each of its
    three fields is that result's district code, and [None] when the
    result has no such key. *)
Theorem political_of_first_result
    (entries result : list (string * pyval)) (others : list pyval) :
  lookup "results" entries = Some (PList (PDict result :: others)) ->
  political_fields (PDict entries)
  = inr [("congressional", get_or result "congress_district" PNone);
         ("assembly", get_or result "state_lower_district" PNone);
         ("senate", get_or result "state_upper_district" PNone)].
Proof.
  intros Hr. unfold political_fields. cbn. unfold dict_getitem.
  rewrite Hr. reflexivity.
Qed.

(** * Checkpoint and export *)

(** X8.  [save_progress] is best effort: whatever the write does, it
    returns normally, leaves the dataset, the counter and the local
    variables as they are, reads the clock once and tries one write, of
    the whole current dataset, to ["temp_geocode_<stamp>.xlsx"]. *)
Theorem save_progress_best_effort (w : world) (fr : frame) :
  save_progress w fr
  = (Normal tt,
     mkFrame (df fr)
       (EvToExcel
          ("temp_geocode_" ++ clock w (length (trace fr)) "%Y%m%d_%H%M%S"
           ++ ".xlsx") (df fr)
        :: EvStrftime "%Y%m%d_%H%M%S" :: trace fr)
       (processed fr) (vars fr)).
Proof.
  rewrite save_progress_eq. reflexivity.
Qed.

Lemma export_named_eq (w : world) (name : string) (fr : frame) :
  export_results w (Some name) fr
  = (Normal (match disk w (length (trace fr)) name with
             | inr _ => Some name
             | inl _ => None
             end),
     logged [EvToExcel name (df fr)] fr).
Proof.
  unfold export_results, try_except, bind. cbn.
  destruct (disk w (length (trace fr)) name) as [e | []]; reflexivity.
Qed.

Lemma export_default_eq (w : world) (fr : frame) :
  export_results w None fr
  = (Normal (match disk w (S (length (trace fr)))
                     ("Geocoded_ActiveParticipants_"
                      ++ clock w (length (trace fr)) "%Y%m%d_%H%M%S"
                      ++ ".xlsx") with
             | inr _ =>
                 Some ("Geocoded_ActiveParticipants_"
                       ++ clock w (length (trace fr)) "%Y%m%d_%H%M%S"
                       ++ ".xlsx")
             | inl _ => None
             end),
     logged [EvToExcel
               ("Geocoded_ActiveParticipants_"
                ++ clock w (length (trace fr)) "%Y%m%d_%H%M%S" ++ ".xlsx")
               (df fr);
             EvStrftime "%Y%m%d_%H%M%S"] fr).
Proof.
  unfold export_results, try_except, bind. cbn.
  destruct (disk w _ _) as [e | []]; reflexivity.
Qed.

(** X9.  [export_results] never raises and never changes the dataset.
    With a name it reads no clock and tries one write of the whole
    dataset to that name; without one the name is
    ["Geocoded_ActiveParticipants_<stamp>.xlsx"].  It returns the name
    when the write succeeded and [None] when the write raised. *)
Theorem export_results_outcome (w : world) (name : string) (fr : frame) :
  export_results w (Some name) fr
  = (Normal (match disk w (length (trace fr)) name with
             | inr _ => Some name
             | inl _ => None
             end),
     logged [EvToExcel name (df fr)] fr)
  /\ export_results w None fr
     = (Normal (match disk w (S (length (trace fr)))
                        ("Geocoded_ActiveParticipants_"
                         ++ clock w (length (trace fr)) "%Y%m%d_%H%M%S"
                         ++ ".xlsx") with
                | inr _ =>
                    Some ("Geocoded_ActiveParticipants_"
                          ++ clock w (length (trace fr)) "%Y%m%d_%H%M%S"
                          ++ ".xlsx")
                | inl _ => None
                end),
        logged [EvToExcel
                  ("Geocoded_ActiveParticipants_"
                   ++ clock w (length (trace fr)) "%Y%m%d_%H%M%S" ++ ".xlsx")
                  (df fr);
                EvStrftime "%Y%m%d_%H%M%S"] fr).
Proof.
  split; [apply export_named_eq | apply export_default_eq].
Qed.

(** * Loading *)

Lemma lookup_app {V} (k : string) (l1 l2 : list (string * V)) :
  lookup k (l1 ++ l2)%list
  = match lookup k l1 with
    | Some v => Some v
    | None => lookup k l2
    end.
Proof.
  induction l1 as [ | [k' v] l1 IH]; cbn; [reflexivity | ].
  destruct (k' =? k); [reflexivity | exact IH].
Qed.

Lemma has_column_add (c col : string) (sh : sheet) :
  c <> col -> has_column col (add_column c sh) = has_column col sh.
Proof.
  intros Hne. unfold has_column, add_column. cbn [columns].
  rewrite lookup_app. destruct (lookup col (columns sh)); [reflexivity | ].
  cbn. apply String.eqb_neq in Hne. rewrite Hne. reflexivity.
Qed.

Lemma add_columns_fold (cols : list string) (sh : sheet) :
  NoDup cols ->
  columns (fold_left (fun df col =>
                        if has_column col df then df else add_column col df)
                     cols sh)
  = (columns sh
     ++ map (fun c => (c, repeat SNone (nrows sh)))
            (filter (fun c => negb (has_column c sh)) cols))%list
  /\ nrows (fold_left (fun df col =>
                         if has_column col df then df else add_column col df)
                      cols sh)
     = nrows sh.
Proof.
  intros Hnd. revert sh.
  induction cols as [ | c cols IH]; intros sh; cbn [fold_left filter].
  - cbn. rewrite app_nil_r. split; reflexivity.
  - inversion Hnd as [ | ? ? Hnotin Hnd']; subst.
    destruct (has_column c sh) eqn:Hc; cbn [negb].
    + apply IH, Hnd'.
    + destruct (IH Hnd' (add_column c sh)) as [Hcols Hrows].
      rewrite Hcols, Hrows. cbn [add_column columns nrows map].
      split; [ | reflexivity].
      rewrite <- app_assoc. cbn [app]. do 3 f_equal.
      apply filter_ext_in. intros c' Hin. f_equal.
      apply has_column_add. intros ->. contradiction.
Qed.

Lemma new_columns_nodup : NoDup new_columns.
Proof.
  unfold new_columns.
  repeat (constructor; [cbn; intuition discriminate | ]).
  constructor.
Qed.

Lemma lookup_filled (col : string) (v : list scalar) (p : string -> bool)
      (cols : list string) :
  lookup col (map (fun c => (c, v)) (filter p cols))
  = if existsb (String.eqb col) cols && p col then Some v else None.
Proof.
  induction cols as [ | c cols IH]; cbn [filter map lookup existsb];
    [reflexivity | ].
  destruct (String.eqb_spec col c) as [Heq | Hne].
  - subst c. cbn [orb andb]. destruct (p col) eqn:Hp.
    + cbn [map lookup]. rewrite String.eqb_refl. reflexivity.
    + rewrite IH, andb_false_r. reflexivity.
  - cbn [orb]. destruct (p c) eqn:Hp; [ | exact IH].
    cbn [map lookup].
    destruct (String.eqb_spec c col) as [Heq | _];
      [subst c; contradiction | exact IH].
Qed.

Lemma nth_error_repeat_none (n i : nat) :
  nth_error (repeat SNone n) i = if (i <? n)%nat then Some SNone else None.
Proof.
  revert i. induction n as [ | n IH]; intros [ | i]; cbn; try reflexivity.
  rewrite IH. reflexivity.
Qed.

(** X10.  [load_data] keeps the columns of the sheet, their order and
    their cells, and appends after them, in the order of its list, each
    of its thirteen columns that the sheet lacks, filled with [None]; the
    number of records is unchanged. *)
Theorem load_data_appends_missing_columns (sh : sheet) :
  columns (add_new_columns sh)
  = (columns sh
     ++ map (fun c => (c, repeat SNone (nrows sh)))
            (filter (fun c => negb (has_column c sh)) new_columns))%list
  /\ nrows (add_new_columns sh) = nrows sh.
Proof.
  apply add_columns_fold, new_columns_nodup.
Qed.

Lemma cell_add_new_columns (sh : sheet) (col : string) (i : nat) :
  cell (add_new_columns sh) col i
  = if has_column col sh then cell sh col i
    else if existsb (String.eqb col) new_columns && (i <? nrows sh)%nat
         then Some SNone else None.
Proof.
  unfold cell, has_column.
  destruct (add_columns_fold new_columns sh new_columns_nodup) as [Hc _].
  fold (add_new_columns sh) in Hc. rewrite Hc, lookup_app.
  destruct (lookup col (columns sh)) as [cells | ] eqn:Hl; [reflexivity | ].
  rewrite lookup_filled. unfold has_column. rewrite Hl. cbn [negb].
  rewrite andb_true_r.
  destruct (existsb (String.eqb col) new_columns); cbn [andb];
    [apply nth_error_repeat_none | reflexivity].
Qed.

(** X11.  After [load_data] a cell of a column that the sheet had is the
    cell of the sheet: nothing of a previous run is overwritten.  A cell
    of a column that was added is [None], and a column that is neither in
    the sheet nor in the list is still absent. *)
Theorem load_data_keeps_cells (sh : sheet) (col : string) (i : nat) :
  cell (add_new_columns sh) col i
  = if has_column col sh then cell sh col i
    else if existsb (String.eqb col) new_columns && (i <? nrows sh)%nat
         then Some SNone else None.
Proof.
  apply cell_add_new_columns.
Qed.

Lemma fold_present (cols : list string) (sh : sheet) :
  (forall c, In c cols -> has_column c sh = true) ->
  fold_left (fun df col =>
               if has_column col df then df else add_column col df) cols sh
  = sh.
Proof.
  induction cols as [ | c cols IH]; intros H; cbn [fold_left];
    [reflexivity | ].
  rewrite (H c (or_introl eq_refl)). apply IH.
  intros c' Hin. apply H. right. exact Hin.
Qed.

(** X12.  Adding the columns is idempotent: on a sheet that went through
    [load_data] once, a second pass adds nothing. *)
Theorem load_data_idempotent (sh : sheet) :
  add_new_columns (add_new_columns sh) = add_new_columns sh.
Proof.
  apply fold_present. intros c Hin. unfold has_column.
  destruct (add_columns_fold new_columns sh new_columns_nodup) as [Hc _].
  fold (add_new_columns sh) in Hc. rewrite Hc, lookup_app.
  destruct (lookup c (columns sh)) as [cells | ] eqn:Hl; [reflexivity | ].
  rewrite lookup_filled. unfold has_column. rewrite Hl. cbn [negb].
  rewrite andb_true_r.
  assert (existsb (String.eqb c) new_columns = true) as ->.
  { apply existsb_exists. exists c. split; [exact Hin | apply String.eqb_refl]. }
  reflexivity.
Qed.

(** * The driver *)

(** X13.  Without a frame nothing runs: [process_records] on an object
    whose [load_data] has not succeeded returns [False] and makes no
    call, and [main], when the sheet cannot be read, returns with no
    call made and nothing exported. *)
Theorem nothing_runs_without_frame (w : world) (tr : list event) (e : exn) :
  process_records w (mkLookup None tr) = (Normal false, mkLookup None tr)
  /\ main w (inl e) = (Normal tt, init).
Proof.
  split; reflexivity.
Qed.


(** * Further properties of the record processor *)


Lemma nth_error_df_update_other (i j : nat) (f : row -> row)
      (rows : list row) :
  j <> i -> nth_error (df_update i f rows) j = nth_error rows j.
Proof.
  revert i j. induction rows as [ | r rows IH]; intros [ | i] [ | j] H; cbn;
    try reflexivity; try contradiction.
  apply IH. intros ->. contradiction.
Qed.

Lemma iteration_keeps_inputs
      (w : world) (index : nat) (r : row) (fr : frame) :
  map input_columns (df (snd (iteration w index r fr)))
  = map input_columns (df fr).
Proof.
  destruct fr as [rows tr p [va vc vz vlat vlon]]. cbn [df].
  unfold iteration, record_body.
  paths.
  all: repeat rewrite df_update_fuse.
  all: try reflexivity.
  all: apply df_update_map; reflexivity.
Qed.

(** X15.  [process_records] changes neither the number nor the order of
    the records, nor any cell of the three input columns. *)
Theorem process_records_keeps_inputs
    (w : world) (rows : list row) (tr : list event) :
  map input_columns
      (final_rows (process_records w (mkLookup (Some rows) tr)))
  = map input_columns rows.
Proof.
  rewrite process_records_eq. cbn [final_rows snd self_df].
  apply (for_rows_invariant
           (fun fr => map input_columns (df fr) = map input_columns rows) w).
  - intros index r fr H. rewrite iteration_keeps_inputs. exact H.
  - reflexivity.
Qed.

(** X16.  The iteration of a record writes to that record only: every
    other record of the dataset is as it was. *)
Theorem iteration_leaves_other_rows
    (w : world) (index : nat) (r : row) (fr : frame) (j : nat) :
  j <> index ->
  nth_error (df (snd (iteration w index r fr))) j = nth_error (df fr) j.
Proof.
  intros Hj. destruct fr as [rows tr p [va vc vz vlat vlon]]. cbn [df].
  unfold iteration, record_body.
  paths.
  all: repeat rewrite df_update_fuse.
  all: try reflexivity.
  all: apply nth_error_df_update_other; exact Hj.
Qed.

Lemma iteration_keeps_throttled
      (w : world) (index : nat) (r : row) (fr : frame) :
  throttled (trace fr) = true ->
  throttled (trace (snd (iteration w index r fr))) = true.
Proof.
  destruct fr as [rows tr p [va vc vz vlat vlon]]. cbn [trace]. intros H.
  unfold iteration, record_body.
  paths.
  all: cbn [throttled]; rewrite ?Nat.eqb_refl; cbn [andb]; exact H.
Qed.

(** X17.  Rate limiting: in a run of [process_records] every request to
    the geocoding service comes right after a pause of [geocode_delay],
    and every request to a district service right after a pause of
    [api_delay]. *)
Theorem requests_are_throttled (w : world) (rows : list row) :
  throttled (final_calls (process_records w (loaded rows))) = true.
Proof.
  unfold loaded. rewrite process_records_eq. cbn [final_calls snd calls].
  apply (for_rows_invariant (fun fr => throttled (trace fr) = true) w).
  - intros index r fr H. apply iteration_keeps_throttled, H.
  - reflexivity.
Qed.







(** ** Records that come with coordinates *)





(** * Instances of the further properties *)

Lemma geocode_failure_status_witness :
  fst (geocode_address offline (SStr "1 Frank H Ogawa Plaza") (SStr "Oakland")
         (SStr "94612") (start_frame [] []))
  = Normal [("status", SStr "Error: offline")].
Proof.
  apply (geocode_failure_status offline (SStr "1 Frank H Ogawa Plaza")
           (SStr "Oakland") (SStr "94612") (start_frame [] [])
           (GeocoderServiceError "offline")).
  reflexivity.
Defined.

Lemma district_of_first_feature_witness :
  features_district unnamed_district = inr [("district", PStr "Unknown")].
Proof.
  apply (district_of_first_feature
           [("features",
             PList [PDict [("attributes", PDict [("NAME", PStr "Six")])];
                    PDict [("attributes", PDict [("DISTRICT", PInt 7)])]])]
           [("attributes", PDict [("NAME", PStr "Six")])]
           [("NAME", PStr "Six")]
           [PDict [("attributes", PDict [("DISTRICT", PInt 7)])]]);
    reflexivity.
Defined.

Lemma census_without_geographies_witness :
  census_fields (PDict [("result", PDict [("input", PStr "point")])])
  = inr [("puma", PNone); ("tract", PNone); ("block", PNone)].
Proof.
  apply (census_without_geographies
           (PDict [("result", PDict [("input", PStr "point")])])).
  reflexivity.
Defined.


Lemma political_of_first_result_witness :
  political_fields
    (PDict [("results", PList [PDict [("congress_district", PStr "11")]])])
  = inr [("congressional", PStr "11"); ("assembly", PNone); ("senate", PNone)].
Proof.
  apply (political_of_first_result
           [("results", PList [PDict [("congress_district", PStr "11")]])]
           [("congress_district", PStr "11")] []).
  reflexivity.
Defined.

Lemma iteration_leaves_other_rows_witness :
  nth_error
    (df (snd (iteration (scenario_world offline) 0 city_hall_row
                (start_frame [city_hall_row; oakland_row] [])))) 1
  = Some oakland_row.
Proof.
  apply (iteration_leaves_other_rows (scenario_world offline) 0 city_hall_row
           (start_frame [city_hall_row; oakland_row] []) 1).
  discriminate.
Defined.




Lemma geocoded_record_skips_geocoder_witness :
  count is_geocode
    (trace (snd (iteration (scenario_world offline) 1 geocoded_oakland_row
                   (start_frame [city_hall_row; geocoded_oakland_row] []))))
  = 0.
Proof.
  apply (geocoded_record_skips_geocoder (scenario_world offline) 1
           geocoded_oakland_row
           (start_frame [city_hall_row; geocoded_oakland_row] [])).
  reflexivity.
Defined.

